(* Verification of the attachment-style quiz backend (src/main.py).

   Numbers.  The Python code computes with floats; here scores and means are
   rationals [Q].  Every comparison of the code ([<] and [>=] against the
   threshold 4.0) and every mean of small integer scores is exact in both, so
   [Q] stands for the exact value a float denotes.  [round(x, 2)] rounds the
   exact value half to even at two decimals, as CPython does.

   JSON.  Python dicts returned by the FastAPI handlers are modelled as the
   JSON objects they are serialised to, with keys in insertion order. *)

From Stdlib Require Import QArith Qabs Qfield Permutation.
From stdpp Require Import base gmap strings list.

Open Scope string_scope.

(* ------------------------------------------------------------------ *)
(* Generic results of a handler: a value or an HTTPException.          *)
(* ------------------------------------------------------------------ *)

Inductive result (A : Type) : Type :=
| Ok (a : A)
| HTTPException (status_code : Z) (detail : string).
Arguments Ok {A} a.
Arguments HTTPException {A} status_code detail.

#[local] Set Warnings "-register-all".

(* JSON values as produced by the handlers. *)
Inductive json : Type :=
| JNull
| JBool (b : bool)
| JNum (q : Q)
| JStr (s : string)
| JArr (l : list json)
| JObj (kv : list (string * json)).

(* Every object key occurring anywhere inside a JSON value. *)
Fixpoint json_keys (j : json) : list string :=
  match j with
  | JArr l =>
      (fix go (l : list json) : list string :=
         match l with
         | [] => []
         | x :: r => app (json_keys x) (go r)
         end) l
  | JObj kv =>
      (fix go (kv : list (string * json)) : list string :=
         match kv with
         | [] => []
         | (k, v) :: r => k :: app (json_keys v) (go r)
         end) kv
  | _ => []
  end.

(* ------------------------------------------------------------------ *)
(* The question bank (QUESTIONS, lines 26-41).                         *)
(* ------------------------------------------------------------------ *)

Inductive factor : Type := anxiety | avoidance.

Record question : Type := mkQuestion {
  q_id : string;
  q_text : string;
  q_factor : factor
}.

Definition QUESTIONS : list question := [
  mkQuestion "A1" "I prefer not to show a partner how I feel deep down." avoidance;
  mkQuestion "A2" "I find it difficult to depend on close others." avoidance;
  mkQuestion "A3" "I don't feel comfortable opening up to romantic partners." avoidance;
  mkQuestion "A4" "I prefer not to be too close to others." avoidance;
  mkQuestion "A5" "It's important for me to feel independent from others." avoidance;
  mkQuestion "A6" "I want to get close, but I keep people at arm’s length." avoidance;
  mkQuestion "X1" "I worry about being abandoned." anxiety;
  mkQuestion "X2" "I often worry my partner doesn't really love me." anxiety;
  mkQuestion "X3" "I need a lot of reassurance from close others." anxiety;
  mkQuestion "X4" "I worry that romantic partners won’t care as much as I do." anxiety;
  mkQuestion "X5" "I get frustrated if I don't get the closeness I want." anxiety;
  mkQuestion "X6" "I fear being alone more than most people." anxiety
].

(* SCALE_INFO (lines 43-57); the integer keys of "labels" are serialised
   as strings. *)
Definition SCALE_INFO : json := JObj [
  ("min", JNum 1);
  ("max", JNum 7);
  ("labels", JObj [
     ("1", JStr "Strongly disagree");
     ("4", JStr "Neutral");
     ("7", JStr "Strongly agree")]);
  ("citation", JObj [
     ("name", JStr "ECR-R (Experiences in Close Relationships – Revised)");
     ("authors", JStr "Fraley, Waller, & Brennan");
     ("year", JNum 2000);
     ("link", JStr "https://labs.psychology.illinois.edu/~rcfraley/measures/ecrr.htm")])
].

(* get_questions (lines 63-65), over an arbitrary bank; the handler is the
   instance at QUESTIONS. *)
Definition get_questions_of (bank : list question) : json :=
  JObj [
    ("questions", JArr (map (fun q => JObj [("id", JStr (q_id q)); ("text", JStr (q_text q))]) bank));
    ("scale", SCALE_INFO)
  ].

Definition get_questions : json := get_questions_of QUESTIONS.

(* ------------------------------------------------------------------ *)
(* Schemas (schemas.py is not part of the sources).                    *)
(* ------------------------------------------------------------------ *)

(** Modelled from the spec: schemas.QuizAnswer, [{question_id: string,
    score: number}], with no server-side range check on [score]. *)
Record QuizAnswer : Type := mkQuizAnswer {
  question_id : string;
  score : Q
}.

(** Modelled from the spec: schemas.QuizResult, [{answers, anxiety_score,
    avoidance_score, style, prevalence, recommendations, meta}]. *)
Record QuizResult : Type := mkQuizResult {
  r_answers : list QuizAnswer;
  r_anxiety_score : Q;
  r_avoidance_score : Q;
  r_style : string;
  r_prevalence : string;
  r_recommendations : list string;
  r_meta : list (string * json)
}.

(* SubmitPayload (lines 59-61). *)
Record SubmitPayload : Type := mkSubmitPayload {
  answers : list QuizAnswer;
  meta : list (string * json)
}.

(* ------------------------------------------------------------------ *)
(* compute_scores (lines 68-80).                                       *)
(* ------------------------------------------------------------------ *)

(* The dict comprehension [{q["id"]: q for q in QUESTIONS}]: inserted in
   order, a later duplicate key overwrites an earlier one. *)
Fixpoint build_qmap (m : gmap string question) (l : list question) : gmap string question :=
  match l with
  | [] => m
  | q :: r => build_qmap (<[q_id q := q]> m) r
  end.

Definition qmap : gmap string question := build_qmap ∅ QUESTIONS.

(* factor_scores = {"anxiety": [], "avoidance": []} *)
Record factor_scores : Type := mkFactorScores {
  fs_anxiety : list Q;
  fs_avoidance : list Q
}.

Definition fs_get (fs : factor_scores) (f : factor) : list Q :=
  match f with
  | anxiety => fs_anxiety fs
  | avoidance => fs_avoidance fs
  end.

(* factor_scores[factor].append(x) *)
Definition fs_append (fs : factor_scores) (f : factor) (x : Q) : factor_scores :=
  match f with
  | anxiety => mkFactorScores (fs_anxiety fs ++ [x]) (fs_avoidance fs)
  | avoidance => mkFactorScores (fs_anxiety fs) (fs_avoidance fs ++ [x])
  end.

(* The for loop over the answers; an unknown id raises at once. *)
Fixpoint score_loop (fs : factor_scores) (l : list QuizAnswer) : result factor_scores :=
  match l with
  | [] => Ok fs
  | ans :: rest =>
      match qmap !! question_id ans with
      | None => HTTPException 400 ("Unknown question id: " +:+ question_id ans)
      | Some q => score_loop (fs_append fs (q_factor q) (score ans)) rest
      end
  end.

(* Python's builtin sum: a left fold starting at 0.  Here the scores and
   their sums are exact rationals, not doubles: this view of the scoring is
   used where rounding of the float operations cannot change the outcome
   (ids, shape, branch tables, persistence).  The request path on doubles,
   with rounded sums and overflow to inf, is modelled below by factor_mean_f
   and submit_quiz_http. *)
Definition py_sum (l : list Q) : Q := fold_left Qplus l 0%Q.

(* sum(xs) / max(1, len(xs)) *)
Definition factor_mean (xs : list Q) : Q :=
  (py_sum xs / inject_Z (Z.max 1 (Z.of_nat (length xs))))%Q.

Definition compute_scores (l : list QuizAnswer) : result (Q * Q) :=
  match score_loop (mkFactorScores [] []) l with
  | HTTPException c d => HTTPException c d
  | Ok fs => Ok (factor_mean (fs_anxiety fs), factor_mean (fs_avoidance fs))
  end.

(* ------------------------------------------------------------------ *)
(* classify_style (lines 83-118).                                      *)
(* ------------------------------------------------------------------ *)

(* x < y and x >= y on exact values. *)
Definition Qlt_bool (x y : Q) : bool := Z.ltb (Qnum x * QDen y) (Qnum y * QDen x).
Definition Qge_bool (x y : Q) : bool := Qle_bool y x.

Definition thr : Q := 4.

Definition classify_style (anxiety avoidance : Q) : string * string * list string :=
  if Qlt_bool anxiety thr && Qlt_bool avoidance thr then
    ("Secure", "~50% of adults in community samples",
     ["Maintain open communication and healthy boundaries.";
      "Continue investing in supportive relationships.";
      "Practice self-reflection to keep patterns secure under stress."])
  else if Qge_bool anxiety thr && Qlt_bool avoidance thr then
    ("Anxious (Preoccupied)", "~20%",
     ["Build self-soothing routines (breathing, grounding).";
      "Communicate needs clearly without protest behaviors.";
      "Seek consistent, responsive partners or therapists."])
  else if Qlt_bool anxiety thr && Qge_bool avoidance thr then
    ("Avoidant (Dismissive)", "~25%",
     ["Practice expressing needs and accepting help.";
      "Experiment with gradual intimacy and repair attempts.";
      "Reflect on autonomy vs. connection to find balance."])
  else
    ("Fearful-Avoidant (Disorganized)", "~5–10%",
     ["Work on trauma-informed stabilization with a professional.";
      "Develop consistent routines for safety and connection.";
      "Use titrated exposure to intimacy with trusted others."]).

(* ------------------------------------------------------------------ *)
(* round(x, 2): the exact value rounded half to even at two decimals.  *)
(* ------------------------------------------------------------------ *)

(* n / d rounded to the nearest integer, ties to the even one. *)
Definition round_half_even (n : Z) (d : positive) : Z :=
  let fl := Z.div n (Zpos d) in
  let r := (n - fl * Zpos d)%Z in
  match Z.compare (2 * r) (Zpos d) with
  | Lt => fl
  | Gt => (fl + 1)%Z
  | Eq => if Z.even fl then fl else (fl + 1)%Z
  end.

Definition py_round2 (x : Q) : Q :=
  let y := (x * 100)%Q in
  Qmake (round_half_even (Qnum y) (Qden y)) 100.

(* ------------------------------------------------------------------ *)
(* Persistence (database.py is not part of the sources).               *)
(* ------------------------------------------------------------------ *)

(* The persistence collaborator's observable state: every call made to it,
   and the documents it has actually stored. *)
Record db_state : Type := mkDbState {
  calls : list (string * QuizResult);
  stored : list (string * QuizResult)
}.

(** Modelled from the spec: database.create_document, the persistence
    collaborator [store(collectionName, record) -> success/failure].  The
    oracle [ok] says whether the store succeeds; on failure it raises and
    stores nothing.  The first component is [true] when it returned and
    [false] when it raised. *)
Definition create_document (ok : string -> QuizResult -> bool)
    (coll : string) (r : QuizResult) (st : db_state) : bool * db_state :=
  if ok coll r then (true, mkDbState ((coll, r) :: calls st) ((coll, r) :: stored st))
  else (false, mkDbState ((coll, r) :: calls st) (stored st)).

(* ------------------------------------------------------------------ *)
(* submit_quiz (lines 121-149).                                        *)
(* ------------------------------------------------------------------ *)

Definition explanation : string :=
  "Scores are computed on two dimensions (anxiety and avoidance) derived from the validated ECR-R measure.".

Section Submit.

Variable ok : string -> QuizResult -> bool.

Definition submit_quiz (payload : SubmitPayload) (st : db_state) : result json * db_state :=
  match compute_scores (answers payload) with
  | HTTPException c d => (HTTPException c d, st)
  | Ok (anx, avo) =>
      let '(style, prevalence, recs) := classify_style anx avo in
      let res := mkQuizResult (answers payload) anx avo style prevalence recs
                   (match meta payload with [] => [] | m => m end) in
      (* try: create_document(...) except Exception: pass *)
      let st' := snd (create_document ok "quizresult" res st) in
      (Ok (JObj [("style", JStr style);
                 ("anxiety_score", JNum (py_round2 anx));
                 ("avoidance_score", JNum (py_round2 avo));
                 ("prevalence", JStr prevalence);
                 ("recommendations", JArr (map JStr recs));
                 ("explanation", JStr explanation)]), st')
  end.

End Submit.

(* ------------------------------------------------------------------ *)
(* Specification-side definitions (from the spec's words).             *)
(* ------------------------------------------------------------------ *)

(* The factor of the bank question with the given id, if any. *)
Definition bank_factor (id : string) : option factor :=
  option_map q_factor (List.find (fun q => String.eqb (q_id q) id) QUESTIONS).

Definition has_factor (f : factor) (a : QuizAnswer) : bool :=
  match bank_factor (question_id a), f with
  | Some anxiety, anxiety | Some avoidance, avoidance => true
  | _, _ => false
  end.

(* The scores of the answers whose question has factor [f]. *)
Definition scores_of (f : factor) (l : list QuizAnswer) : list Q :=
  map score (List.filter (has_factor f) l).

(* The spec's aggregate: sum(scores) / count if count > 0, else 0. *)
Definition spec_mean (f : factor) (l : list QuizAnswer) : Q :=
  let xs := scores_of f l in
  if (length xs =? 0)%nat then 0%Q
  else (py_sum xs / inject_Z (Z.of_nat (length xs)))%Q.

(* The style component of the classification. *)
Definition style_of (anxiety avoidance : Q) : string :=
  fst (fst (classify_style anxiety avoidance)).

(* An answer refers to a question of the bank. *)
Definition known (a : QuizAnswer) : Prop :=
  exists q, In q QUESTIONS /\ q_id q = question_id a.

(* The error message of the handler for an unknown id. *)
Definition unknown_msg (id : string) : string := "Unknown question id: " +:+ id.

(* ------------------------------------------------------------------ *)
(* Float semantics of the request path.                                *)
(*                                                                     *)
(* The definitions above compute on exact values.  The scoring and the *)
(* response of /api/submit are also modelled here on IEEE-754 binary64 *)
(* values, as CPython computes them: every addition and division is    *)
(* rounded to nearest, ties to even, and overflows to an infinity.     *)
(* Signed zeros are not distinguished.                                 *)
(* ------------------------------------------------------------------ *)

Inductive float : Type :=
| Fin (q : Q)          (* a finite double, by its exact value *)
| Inf (neg : bool)     (* +inf or -inf *)
| NaN.

Definition is_finite (x : float) : bool :=
  match x with Fin _ => true | _ => false end.

(* 2^e for any integer e. *)
Definition pow2 (e : Z) : Q :=
  if (0 <=? e)%Z then inject_Z (2 ^ e) else 1 # Z.to_pos (2 ^ (- e)).

(* floor(log2 (n / d)) for n > 0. *)
Definition log2_floor (n : Z) (d : positive) : Z :=
  let e := (Z.log2 n - Z.log2 (Zpos d))%Z in
  if Qle_bool (pow2 e) (n # d) then e else (e - 1)%Z.

(* The double nearest to x (ties to even); +-inf past the largest
   finite double 2^1024 - 2^971.  53-bit significands, least exponent of
   a subnormal quantum -1074. *)
Definition f64_round (x : Q) : float :=
  let n := Qnum x in
  let d := Qden x in
  if (n =? 0)%Z then Fin 0
  else
    let a := Z.abs n in
    let qe := Z.max (log2_floor a d - 52) (-1074) in
    let m := if (0 <=? qe)%Z then round_half_even a (d * Z.to_pos (2 ^ qe))
             else round_half_even (a * 2 ^ (- qe)) d in
    if (0 <=? qe)%Z && (2 ^ (1024 - qe) <=? m)%Z then Inf (n <? 0)%Z
    else Fin (inject_Z (Z.sgn n * m) * pow2 qe)%Q.

(* x + y on doubles. *)
Definition f64_add (x y : float) : float :=
  match x, y with
  | Fin a, Fin b => f64_round (a + b)
  | Inf s, Inf t => if Bool.eqb s t then Inf s else NaN
  | Inf s, Fin _ | Fin _, Inf s => Inf s
  | _, _ => NaN
  end.

(* x / k for a positive Python int k (exactly representable here). *)
Definition f64_div_pos (x : float) (k : positive) : float :=
  match x with
  | Fin a => f64_round (a / inject_Z (Zpos k))
  | Inf s => Inf s
  | NaN => NaN
  end.

(* x < t and x >= t for a finite constant t: false whenever x is NaN. *)
Definition f64_lt (x : float) (t : Q) : bool :=
  match x with Fin a => Qlt_bool a t | Inf neg => neg | NaN => false end.
Definition f64_ge (x : float) (t : Q) : bool :=
  match x with Fin a => Qge_bool a t | Inf neg => negb neg | NaN => false end.

(* sum(xs) / max(1, len(xs)) on doubles (the scores are the doubles the
   request body was parsed to).  sum starts from the int 0, 0 + x is x for
   a double x, and the items are added left to right, each addition
   rounded (the summation of CPython up to 3.11). *)
Definition factor_mean_f (xs : list Q) : float :=
  f64_div_pos (fold_left f64_add (map Fin xs) (Fin 0))
              (Z.to_pos (Z.max 1 (Z.of_nat (length xs)))).

(* classify_style (lines 83-118) on doubles. *)
Definition classify_style_f (anxiety avoidance : float) : string * string * list string :=
  if f64_lt anxiety thr && f64_lt avoidance thr then
    ("Secure", "~50% of adults in community samples",
     ["Maintain open communication and healthy boundaries.";
      "Continue investing in supportive relationships.";
      "Practice self-reflection to keep patterns secure under stress."])
  else if f64_ge anxiety thr && f64_lt avoidance thr then
    ("Anxious (Preoccupied)", "~20%",
     ["Build self-soothing routines (breathing, grounding).";
      "Communicate needs clearly without protest behaviors.";
      "Seek consistent, responsive partners or therapists."])
  else if f64_lt anxiety thr && f64_ge avoidance thr then
    ("Avoidant (Dismissive)", "~25%",
     ["Practice expressing needs and accepting help.";
      "Experiment with gradual intimacy and repair attempts.";
      "Reflect on autonomy vs. connection to find balance."])
  else
    ("Fearful-Avoidant (Disorganized)", "~5–10%",
     ["Work on trauma-informed stabilization with a professional.";
      "Develop consistent routines for safety and connection.";
      "Use titrated exposure to intimacy with trusted others."]).

(* round(x, 2) on a double: the exact value rounded half to even at two
   decimals, then the nearest double; inf and nan are returned as is. *)
Definition py_round2_f (x : float) : float :=
  match x with
  | Fin a => f64_round (py_round2 a)
  | _ => x
  end.

(* What the client receives. *)
Inductive http_response : Type :=
| HttpOk (body : json)
| HttpError (status_code : Z) (detail : string).

(* Serialising the handler's dict: Starlette's JSONResponse calls
   json.dumps(..., allow_nan=False), which raises ValueError on inf or
   nan; the server then answers 500. *)
Definition render_submit (style : string) (anx avo : float) (prevalence : string)
    (recs : list string) : http_response :=
  match anx, avo with
  | Fin a, Fin v =>
      HttpOk (JObj [("style", JStr style);
                    ("anxiety_score", JNum a);
                    ("avoidance_score", JNum v);
                    ("prevalence", JStr prevalence);
                    ("recommendations", JArr (map JStr recs));
                    ("explanation", JStr explanation)])
  | _, _ => HttpError 500 "Internal Server Error"
  end.

(* POST /api/submit on doubles: submit_quiz (lines 121-149) followed by
   the serialisation of its result.  An HTTPException becomes its status
   and detail.  QuizResult(...) accepts non-finite floats, and the outcome
   of create_document is discarded by the try/except, so neither changes
   what the client receives (see submit_quiz above for the store). *)
Definition submit_quiz_http (payload : SubmitPayload) : http_response :=
  match score_loop (mkFactorScores [] []) (answers payload) with
  | HTTPException c d => HttpError c d
  | Ok fs =>
      let anx := factor_mean_f (fs_anxiety fs) in
      let avo := factor_mean_f (fs_avoidance fs) in
      let '(style, prevalence, recs) := classify_style_f anx avo in
      render_submit style (py_round2_f anx) (py_round2_f avo) prevalence recs
  end.

(* The JSON number 1e308 as parsed: the double nearest 10^308. *)
Definition double_1e308 : Q :=
  match f64_round (inject_Z (10 ^ 308)) with Fin q => q | _ => 0%Q end.


(* ------------------------------------------------------------------ *)
(* The question map.                                                   *)
(* ------------------------------------------------------------------ *)

Lemma build_qmap_lookup_some (l : list question) (m : gmap string question) id q :
  build_qmap m l !! id = Some q -> m !! id = Some q \/ (In q l /\ q_id q = id).
Proof.
  revert m. induction l as [|q' l IH]; intros m H; simpl in *; [now left|].
  destruct (IH _ H) as [Hm | [Hin Hid]]; [|now right; auto].
  destruct (decide (q_id q' = id)) as [<-|Hne].
  - rewrite lookup_insert_eq in Hm. injection Hm as ->. right; auto.
  - rewrite lookup_insert_ne in Hm by congruence. now left.
Qed.

Lemma build_qmap_lookup_none (l : list question) (m : gmap string question) id :
  m !! id = None -> (forall q, In q l -> q_id q <> id) -> build_qmap m l !! id = None.
Proof.
  revert m. induction l as [|q' l IH]; intros m Hm Hl; simpl; [done|].
  apply IH; [|intros q Hq; apply Hl; now right].
  rewrite lookup_insert_ne; [done|]. intros E. apply (Hl q'); [now left | done].
Qed.

Lemma qmap_lookup_inv id q : qmap !! id = Some q -> In q QUESTIONS /\ q_id q = id.
Proof.
  intros H. destruct (build_qmap_lookup_some _ _ _ _ H) as [H0|H0]; [|done].
  rewrite lookup_empty in H0. discriminate.
Qed.

Lemma qmap_lookup_bank q : In q QUESTIONS -> qmap !! q_id q = Some q.
Proof.
  intros H. repeat (destruct H as [<-|H]; [vm_compute; reflexivity|]). destruct H.
Qed.

Lemma bank_factor_bank q : In q QUESTIONS -> bank_factor (q_id q) = Some (q_factor q).
Proof.
  intros H. repeat (destruct H as [<-|H]; [vm_compute; reflexivity|]). destruct H.
Qed.

Lemma qmap_lookup_known a : known a -> exists q, qmap !! question_id a = Some q.
Proof.
  intros [q [Hin Hid]]. exists q. rewrite <- Hid. now apply qmap_lookup_bank.
Qed.

Lemma qmap_lookup_unknown a : ~ known a <-> qmap !! question_id a = None.
Proof.
  split.
  - intros Hk. destruct (qmap !! question_id a) as [q|] eqn:E; [|done].
    exfalso. apply Hk. exists q. now apply qmap_lookup_inv.
  - intros E [q [Hin Hid]]. rewrite <- Hid, qmap_lookup_bank in E by done. discriminate.
Qed.

Lemma qmap_lookup_factor id q : qmap !! id = Some q -> bank_factor id = Some (q_factor q).
Proof.
  intros H. destruct (qmap_lookup_inv _ _ H) as [Hin <-]. now apply bank_factor_bank.
Qed.

(* ------------------------------------------------------------------ *)
(* The scoring loop.                                                   *)
(* ------------------------------------------------------------------ *)

Lemma score_loop_known (l : list QuizAnswer) fs :
  Forall known l ->
  score_loop fs l =
    Ok (mkFactorScores (fs_anxiety fs ++ scores_of anxiety l)
                       (fs_avoidance fs ++ scores_of avoidance l)).
Proof.
  revert fs. induction l as [|a l IH]; intros fs Hl; simpl.
  - rewrite !app_nil_r. now destruct fs.
  - inversion Hl as [|? ? Ha Hl']; subst.
    destruct (qmap_lookup_known a Ha) as [q Hq]. rewrite Hq, IH by done.
    unfold scores_of, has_factor. simpl.
    rewrite (qmap_lookup_factor _ _ Hq).
    destruct (q_factor q); simpl; rewrite <- !app_assoc; reflexivity.
Qed.

Lemma score_loop_unknown (l : list QuizAnswer) fs :
  (exists a, In a l /\ ~ known a) ->
  exists bad, In bad l /\ ~ known bad /\
    score_loop fs l = HTTPException 400 (unknown_msg (question_id bad)).
Proof.
  revert fs. induction l as [|a l IH]; intros fs [b [Hb Hk]]; [destruct Hb|]. simpl.
  destruct (qmap !! question_id a) as [q|] eqn:E.
  - destruct Hb as [->|Hb].
    + exfalso. rewrite (proj1 (qmap_lookup_unknown b) Hk) in E. discriminate.
    + destruct (IH (fs_append fs (q_factor q) (score a))) as [bad [? [? ?]]];
        [now exists b|].
      exists bad. simpl. auto.
  - exists a. split; [now left|]. split; [now apply qmap_lookup_unknown|]. reflexivity.
Qed.

Lemma compute_scores_known (l : list QuizAnswer) :
  Forall known l ->
  compute_scores l =
    Ok (factor_mean (scores_of anxiety l), factor_mean (scores_of avoidance l)).
Proof.
  intros Hl. unfold compute_scores. rewrite score_loop_known by done. reflexivity.
Qed.

Lemma factor_mean_spec (xs : list Q) :
  factor_mean xs =
    if (length xs =? 0)%nat then 0%Q
    else (py_sum xs / inject_Z (Z.of_nat (length xs)))%Q.
Proof.
  unfold factor_mean. destruct xs as [|x xs']; [reflexivity|].
  simpl length. cbv beta iota. do 2 f_equal. lia.
Qed.

Lemma compute_scores_spec (l : list QuizAnswer) :
  Forall known l ->
  compute_scores l = Ok (spec_mean anxiety l, spec_mean avoidance l).
Proof.
  intros Hl. rewrite compute_scores_known by done. unfold spec_mean.
  now rewrite !factor_mean_spec.
Qed.

(* ------------------------------------------------------------------ *)
(* Comparisons.                                                        *)
(* ------------------------------------------------------------------ *)

Lemma Qlt_bool_iff (x y : Q) : Qlt_bool x y = true <-> (x < y)%Q.
Proof. unfold Qlt_bool, Qlt. apply Z.ltb_lt. Qed.

Lemma Qge_bool_iff (x y : Q) : Qge_bool x y = true <-> (y <= x)%Q.
Proof. unfold Qge_bool. apply Qle_bool_iff. Qed.

Lemma Qge_bool_negb (x y : Q) : Qge_bool x y = negb (Qlt_bool x y).
Proof.
  destruct (Qlt_bool x y) eqn:E; simpl.
  - apply Qlt_bool_iff in E. apply not_true_iff_false. rewrite Qge_bool_iff.
    intros H. apply (Qlt_not_le x y); done.
  - apply Qge_bool_iff. apply Qnot_lt_le. intros H. apply Qlt_bool_iff in H. congruence.
Qed.

Lemma Qlt_bool_false (x y : Q) : Qlt_bool x y = false <-> (y <= x)%Q.
Proof. rewrite <- Qge_bool_iff, Qge_bool_negb. destruct (Qlt_bool x y); simpl; split; congruence. Qed.

(** C1: [classify_style] implements the threshold table with T = 4.0: the
    "low" branch is [< 4.0] and [4.0] itself is "high".  Each style is
    returned exactly when its row of the table holds, so the four rows
    partition the plane (the style is always one of the four), and
    anxiety = avoidance = 4.0 is Fearful-Avoidant (Disorganized). *)
Theorem classify_style_table :
  (forall anxiety avoidance : Q,
     (style_of anxiety avoidance = "Secure" <->
        (anxiety < 4 /\ avoidance < 4)%Q) /\
     (style_of anxiety avoidance = "Anxious (Preoccupied)" <->
        (4 <= anxiety /\ avoidance < 4)%Q) /\
     (style_of anxiety avoidance = "Avoidant (Dismissive)" <->
        (anxiety < 4 /\ 4 <= avoidance)%Q) /\
     (style_of anxiety avoidance = "Fearful-Avoidant (Disorganized)" <->
        (4 <= anxiety /\ 4 <= avoidance)%Q) /\
     In (style_of anxiety avoidance)
        ["Secure"; "Anxious (Preoccupied)"; "Avoidant (Dismissive)";
         "Fearful-Avoidant (Disorganized)"]) /\
  style_of 4 4 = "Fearful-Avoidant (Disorganized)".
Proof.
  split; [|vm_compute; reflexivity].
  intros anx avo. unfold style_of, classify_style. rewrite !Qge_bool_negb.
  destruct (Qlt_bool anx thr) eqn:Ea, (Qlt_bool avo thr) eqn:Ev; simpl;
    unfold thr in *;
    [apply Qlt_bool_iff in Ea; apply Qlt_bool_iff in Ev
    |apply Qlt_bool_iff in Ea; apply Qlt_bool_false in Ev
    |apply Qlt_bool_false in Ea; apply Qlt_bool_iff in Ev
    |apply Qlt_bool_false in Ea; apply Qlt_bool_false in Ev];
    repeat split; intros; try discriminate; try tauto;
    repeat match goal with
    | H : _ /\ _ |- _ => destruct H
    | H1 : (?x < ?y)%Q, H2 : (?y <= ?x)%Q |- _ => exfalso; apply (Qlt_not_le x y); done
    end.
Qed.

(** C2: when every answer refers to a question of the bank,
    [compute_scores] returns, for each factor, sum(scores)/count of the
    scores of the answers whose question has that factor if count > 0, and
    exactly 0 when no answer has that factor; it raises nothing. *)
Theorem compute_scores_factor_means (l : list QuizAnswer)
    (Hknown : forall a, In a l -> known a) :
  compute_scores l = Ok (spec_mean anxiety l, spec_mean avoidance l).
Proof. apply compute_scores_spec. now apply List.Forall_forall. Qed.

Lemma compute_scores_factor_means_witness :
  compute_scores [mkQuizAnswer "X1" 6; mkQuizAnswer "X2" 4; mkQuizAnswer "X3" 2] =
    Ok (spec_mean anxiety [mkQuizAnswer "X1" 6; mkQuizAnswer "X2" 4; mkQuizAnswer "X3" 2],
        spec_mean avoidance [mkQuizAnswer "X1" 6; mkQuizAnswer "X2" 4; mkQuizAnswer "X3" 2]).
Proof.
  apply compute_scores_factor_means. intros a Ha; simpl in Ha.
  destruct Ha as [<-|[<-|[<-|[]]]].
  - exists (mkQuestion "X1" "I worry about being abandoned." anxiety).
    split; [unfold QUESTIONS; simpl; intuition | reflexivity].
  - exists (mkQuestion "X2" "I often worry my partner doesn't really love me." anxiety).
    split; [unfold QUESTIONS; simpl; intuition | reflexivity].
  - exists (mkQuestion "X3" "I need a lot of reassurance from close others." anxiety).
    split; [unfold QUESTIONS; simpl; intuition | reflexivity].
Defined.

(** C3: a submission with an answer whose id is not in the bank is rejected
    with HTTP 400 and the detail "Unknown question id: <id>" for an offending
    id; the persistence collaborator is never called, so its state (calls
    made and documents stored) is unchanged and no QuizResult exists. *)
Theorem submit_quiz_unknown_id (ok : string -> QuizResult -> bool)
    (payload : SubmitPayload) (st : db_state)
    (Hbad : exists a, In a (answers payload) /\ ~ known a) :
  exists bad, In bad (answers payload) /\ ~ known bad /\
    submit_quiz ok payload st = (HTTPException 400 (unknown_msg (question_id bad)), st).
Proof.
  destruct (score_loop_unknown _ (mkFactorScores [] []) Hbad) as [bad [Hin [Hk E]]].
  exists bad. repeat split; [done|done|].
  unfold submit_quiz, compute_scores. now rewrite E.
Qed.

Lemma submit_quiz_unknown_id_witness :
  exists bad, In bad [mkQuizAnswer "X1" 5; mkQuizAnswer "Z9" 3] /\ ~ known bad /\
    submit_quiz (fun _ _ => true) (mkSubmitPayload [mkQuizAnswer "X1" 5; mkQuizAnswer "Z9" 3] [])
      (mkDbState [] []) =
    (HTTPException 400 (unknown_msg (question_id bad)), mkDbState [] []).
Proof.
  apply (submit_quiz_unknown_id (fun _ _ => true)
           (mkSubmitPayload [mkQuizAnswer "X1" 5; mkQuizAnswer "Z9" 3] []) (mkDbState [] [])).
  exists (mkQuizAnswer "Z9" 3). split; [simpl; tauto|].
  intros [q [Hin Hid]]. unfold QUESTIONS in Hin.
  repeat (destruct Hin as [<-|Hin]; [discriminate|]). destruct Hin.
Defined.

(** C4 (as stated, refuted): anxiety = 3.999 and avoidance = 4.0 is not
    classified 'Anxious (Preoccupied)'. *)
Lemma classify_3999_4_not_anxious :
  style_of (3999 # 1000) 4 <> "Anxious (Preoccupied)".
Proof. vm_compute. discriminate. Qed.

(** C4 (amended): with avoidance = 4.0 (at the threshold, so "high") and any
    anxiety below 4.0, such as 3.999, [classify_style] returns
    'Avoidant (Dismissive)' with prevalence '~25%'. *)
Theorem classify_low_anxiety_at_threshold (anxiety : Q) (Hlow : (anxiety < 4)%Q) :
  classify_style anxiety 4 =
    ("Avoidant (Dismissive)", "~25%",
     ["Practice expressing needs and accepting help.";
      "Experiment with gradual intimacy and repair attempts.";
      "Reflect on autonomy vs. connection to find balance."]).
Proof.
  unfold classify_style. apply Qlt_bool_iff in Hlow. unfold thr. rewrite Hlow.
  destruct (Qge_bool anxiety 4); reflexivity.
Qed.

Lemma classify_low_anxiety_at_threshold_witness :
  (3999 # 1000 < 4)%Q /\
  classify_style (3999 # 1000) 4 =
    ("Avoidant (Dismissive)", "~25%",
     ["Practice expressing needs and accepting help.";
      "Experiment with gradual intimacy and repair attempts.";
      "Reflect on autonomy vs. connection to find balance."]).
Proof.
  split; [reflexivity|]. apply classify_low_anxiety_at_threshold. reflexivity.
Defined.

(* ------------------------------------------------------------------ *)
(* Rounding.                                                           *)
(* ------------------------------------------------------------------ *)

Lemma round_half_even_close (n : Z) (d : positive) :
  (2 * Z.abs (round_half_even n d * Zpos d - n) <= Zpos d)%Z.
Proof.
  unfold round_half_even.
  pose proof (Z.div_mod n (Zpos d) ltac:(lia)) as Hdm.
  pose proof (Z.mod_pos_bound n (Zpos d) ltac:(lia)) as Hb.
  set (fl := (n / Zpos d)%Z) in *. set (r := (n mod Zpos d)%Z) in *.
  assert (Hr : (n - fl * Zpos d = r)%Z) by lia. rewrite Hr.
  destruct (Z.compare_spec (2 * r) (Zpos d)); [destruct (Z.even fl)|..]; nia.
Qed.

Lemma py_round2_close (x : Q) : (Qabs (py_round2 x - x) <= 1 # 200)%Q.
Proof.
  destruct x as [xn xd]. unfold py_round2.
  pose proof (round_half_even_close (Qnum ((xn # xd) * 100)) (Qden ((xn # xd) * 100))) as H.
  set (k := round_half_even _ _) in *. cbn in H.
  apply Qabs_Qle_condition. unfold Qle, Qminus, Qplus, Qopp. cbn.
  rewrite Pos.mul_1_r in H. rewrite !Pos2Z.inj_mul. split; nia.
Qed.

Lemma py_round2_two_places (x : Q) : exists k : Z, py_round2 x = Qmake k 100.
Proof. eexists. reflexivity. Qed.

(* ------------------------------------------------------------------ *)
(* Sums and permutations.                                              *)
(* ------------------------------------------------------------------ *)

Lemma Qplus_right_comm_eq (a x y : Q) : ((a + y) + x)%Q = ((a + x) + y)%Q.
Proof.
  destruct a as [an ad], x as [xn xd], y as [yn yd]. unfold Qplus. cbn [Qnum Qden].
  f_equal.
  - rewrite !Pos2Z.inj_mul. ring.
  - rewrite <- !Pos.mul_assoc, (Pos.mul_comm yd xd). reflexivity.
Qed.

Lemma fold_left_Qplus_perm (xs ys : list Q) (a : Q) :
  Permutation xs ys -> fold_left Qplus xs a = fold_left Qplus ys a.
Proof.
  intros Hp. revert a. induction Hp; intros a; simpl.
  - reflexivity.
  - apply IHHp.
  - now rewrite Qplus_right_comm_eq.
  - now rewrite IHHp1, IHHp2.
Qed.

Lemma filter_perm {A} (f : A -> bool) (l l' : list A) :
  Permutation l l' -> Permutation (List.filter f l) (List.filter f l').
Proof.
  induction 1; simpl.
  - constructor.
  - destruct (f x); [constructor|]; done.
  - destruct (f x), (f y); try constructor; reflexivity.
  - etransitivity; eauto.
Qed.

Lemma spec_mean_perm (f : factor) (l l' : list QuizAnswer) :
  Permutation l l' -> spec_mean f l = spec_mean f l'.
Proof.
  intros Hp. unfold spec_mean, py_sum.
  assert (Hs : Permutation (scores_of f l) (scores_of f l')).
  { unfold scores_of. apply Permutation_map, filter_perm, Hp. }
  rewrite (Permutation_length Hs), (fold_left_Qplus_perm _ _ _ Hs). reflexivity.
Qed.

(* ------------------------------------------------------------------ *)
(* Deciding the ids of a submission.                                   *)
(* ------------------------------------------------------------------ *)

Lemma known_or_unknown (l : list QuizAnswer) :
  Forall known l \/ exists a, In a l /\ ~ known a.
Proof.
  induction l as [|a l [IH|[b [Hb Hk]]]].
  - left. constructor.
  - destruct (qmap !! question_id a) as [q|] eqn:E.
    + left. constructor; [|done]. exists q. now apply qmap_lookup_inv.
    + right. exists a. split; [now left|]. now apply qmap_lookup_unknown.
  - right. exists b. split; [now right|done].
Qed.

(** C5: whatever the persistence collaborator does (succeeds or raises on
    any call), the value [submit_quiz] returns is the one it returns when
    every store succeeds: the failure is caught and discarded. *)
Theorem submit_quiz_persistence_isolated :
  forall (ok : string -> QuizResult -> bool) (payload : SubmitPayload) (st st' : db_state),
    fst (submit_quiz ok payload st) = fst (submit_quiz (fun _ _ => true) payload st').
Proof.
  intros ok payload st st'. unfold submit_quiz.
  destruct (compute_scores (answers payload)) as [[anx avo]|c d]; [|reflexivity].
  destruct (classify_style anx avo) as [[style prevalence] recs]. reflexivity.
Qed.

(** C6: for a valid submission the response carries the means rounded to two
    decimals (within 1/200 of the mean, a multiple of 1/100, and 14/3 gives
    4.67), while the QuizResult handed to create_document carries the
    unrounded means; style, prevalence and recommendations are the same in
    both. *)
Theorem submit_quiz_rounding :
  (forall x : Q, (Qabs (py_round2 x - x) <= 1 # 200)%Q /\ exists k : Z, py_round2 x = Qmake k 100) /\
  py_round2 (14 # 3) = 467 # 100 /\
  (forall (ok : string -> QuizResult -> bool) (payload : SubmitPayload) (st : db_state),
     (forall a, In a (answers payload) -> known a) ->
     exists anx avo style prevalence recs,
       compute_scores (answers payload) = Ok (anx, avo) /\
       classify_style anx avo = (style, prevalence, recs) /\
       fst (submit_quiz ok payload st) =
         Ok (JObj [("style", JStr style);
                   ("anxiety_score", JNum (py_round2 anx));
                   ("avoidance_score", JNum (py_round2 avo));
                   ("prevalence", JStr prevalence);
                   ("recommendations", JArr (map JStr recs));
                   ("explanation", JStr explanation)]) /\
       calls (snd (submit_quiz ok payload st)) =
         ("quizresult", mkQuizResult (answers payload) anx avo style prevalence recs (meta payload))
           :: calls st).
Proof.
  split; [intros x; split; [apply py_round2_close | apply py_round2_two_places]|].
  split; [vm_compute; reflexivity|].
  intros ok payload st Hk.
  rewrite (compute_scores_spec _ (proj2 (List.Forall_forall _ _) Hk)).
  destruct (classify_style (spec_mean anxiety (answers payload)) (spec_mean avoidance (answers payload)))
    as [[style prevalence] recs] eqn:Ec.
  do 5 eexists. split; [reflexivity|]. split; [exact Ec|].
  unfold submit_quiz. rewrite (compute_scores_spec _ (proj2 (List.Forall_forall _ _) Hk)), Ec.
  replace (match meta payload with [] => [] | m => m end) with (meta payload)
    by (destruct (meta payload); reflexivity).
  split; [reflexivity|]. unfold create_document. cbn.
  destruct (ok _ _); reflexivity.
Qed.

(** C7: GET /api/questions returns the bank's questions in order, each as an
    object with exactly the keys "id" and "text"; for any bank, no key
    "factor" occurs anywhere in the output. *)
Theorem get_questions_blind :
  (exists qs : list json,
     get_questions = JObj [("questions", JArr qs); ("scale", SCALE_INFO)] /\
     Forall2 (fun j q => j = JObj [("id", JStr (q_id q)); ("text", JStr (q_text q))]) qs QUESTIONS) /\
  (forall bank : list question, ~ In "factor" (json_keys (get_questions_of bank))).
Proof.
  split.
  - eexists. split; [reflexivity|].
    induction QUESTIONS as [|q l IH]; simpl; constructor; [reflexivity | exact IH].
  - intros bank. cbn [get_questions_of json_keys].
    intros [E|Hin]; [discriminate E|].
    apply in_app_or in Hin. destruct Hin as [Hin|Hin].
    + induction bank as [|q bank IH]; cbn in Hin; [exact Hin|].
      destruct Hin as [E|[E|Hin]]; [discriminate E | discriminate E | exact (IH Hin)].
    + vm_compute in Hin. repeat (destruct Hin as [E|Hin]; [discriminate E|]). exact Hin.
Qed.

(** C8: for submissions whose ids are all in the bank, [compute_scores]
    returns the same pair for every permutation of the answers. *)
Theorem compute_scores_perm (l l' : list QuizAnswer)
    (Hknown : forall a, In a l -> known a) (Hperm : Permutation l l') :
  compute_scores l = compute_scores l'.
Proof.
  assert (Hk' : Forall known l').
  { apply List.Forall_forall. intros a Ha. apply Hknown.
    apply (Permutation_in a (Permutation_sym Hperm) Ha). }
  rewrite (compute_scores_spec _ (proj2 (List.Forall_forall _ _) Hknown)), (compute_scores_spec _ Hk').
  now rewrite (spec_mean_perm anxiety _ _ Hperm), (spec_mean_perm avoidance _ _ Hperm).
Qed.

Lemma compute_scores_perm_witness :
  compute_scores [mkQuizAnswer "X1" 6; mkQuizAnswer "A2" 3; mkQuizAnswer "X4" 1] =
  compute_scores [mkQuizAnswer "X4" 1; mkQuizAnswer "X1" 6; mkQuizAnswer "A2" 3].
Proof.
  apply compute_scores_perm.
  - intros a Ha; simpl in Ha. destruct Ha as [<-|[<-|[<-|[]]]].
    + exists (mkQuestion "X1" "I worry about being abandoned." anxiety).
      split; [unfold QUESTIONS; simpl; intuition | reflexivity].
    + exists (mkQuestion "A2" "I find it difficult to depend on close others." avoidance).
      split; [unfold QUESTIONS; simpl; intuition | reflexivity].
    + exists (mkQuestion "X4" "I worry that romantic partners won’t care as much as I do." anxiety).
      split; [unfold QUESTIONS; simpl; intuition | reflexivity].
  - apply (perm_trans (l' := [mkQuizAnswer "X1" 6; mkQuizAnswer "X4" 1; mkQuizAnswer "A2" 3])).
    + apply perm_skip, perm_swap.
    + apply perm_swap.
Defined.

(** C10: an empty submission is accepted: both means default to 0, so the
    response has style 'Secure' and anxiety_score = avoidance_score = 0
    (0.00). *)
Theorem submit_quiz_empty :
  forall (ok : string -> QuizResult -> bool) (m : list (string * json)) (st : db_state),
    compute_scores [] = Ok (0%Q, 0%Q) /\
    (0 # 100 == 0)%Q /\
    fst (submit_quiz ok (mkSubmitPayload [] m) st) =
      Ok (JObj [("style", JStr "Secure");
                ("anxiety_score", JNum (0 # 100));
                ("avoidance_score", JNum (0 # 100));
                ("prevalence", JStr "~50% of adults in community samples");
                ("recommendations", JArr [JStr "Maintain open communication and healthy boundaries.";
                                          JStr "Continue investing in supportive relationships.";
                                          JStr "Practice self-reflection to keep patterns secure under stress."]);
                ("explanation", JStr explanation)]).
Proof.
  intros ok m st. split; [reflexivity|]. split; [reflexivity|].
  unfold submit_quiz. cbn [answers]. vm_compute. reflexivity.
Qed.

(* ------------------------------------------------------------------ *)
(* Further properties of compute_scores.                               *)
(* ------------------------------------------------------------------ *)

Lemma score_loop_known_prefix (pre rest : list QuizAnswer) fs :
  Forall known pre -> exists fs', score_loop fs (pre ++ rest) = score_loop fs' rest.
Proof.
  revert fs. induction pre as [|a pre IH]; intros fs Hpre; simpl; [now exists fs|].
  inversion Hpre as [|? ? Ha Hpre']; subst.
  destruct (qmap_lookup_known a Ha) as [q Hq]. rewrite Hq. now apply IH.
Qed.

Lemma bank_factor_known (id : string) (f : factor) :
  bank_factor id = Some f -> exists q, In q QUESTIONS /\ q_id q = id /\ q_factor q = f.
Proof.
  unfold bank_factor. destruct (List.find _ QUESTIONS) as [q|] eqn:E; simpl; [|discriminate].
  intros Hf. injection Hf as <-. apply find_some in E as [Hin Heq].
  apply String.eqb_eq in Heq. now exists q.
Qed.

(** The handler reports the first answer, in submission order, whose id is
    not in the bank: answers after it are never looked at. *)
Theorem submit_quiz_first_unknown (ok : string -> QuizResult -> bool)
    (pre post : list QuizAnswer) (bad : QuizAnswer) (m : list (string * json)) (st : db_state)
    (Hpre : forall a, In a pre -> known a) (Hbad : ~ known bad) :
  submit_quiz ok (mkSubmitPayload (pre ++ bad :: post) m) st =
    (HTTPException 400 (unknown_msg (question_id bad)), st).
Proof.
  unfold submit_quiz, compute_scores. cbn [answers].
  destruct (score_loop_known_prefix pre (bad :: post) (mkFactorScores [] []))
    as [fs' E]; [now apply List.Forall_forall|].
  rewrite E. simpl. rewrite (proj1 (qmap_lookup_unknown bad) Hbad). reflexivity.
Qed.

Lemma submit_quiz_first_unknown_witness :
  submit_quiz (fun _ _ => true)
    (mkSubmitPayload ([mkQuizAnswer "X1" 5] ++ mkQuizAnswer "Z9" 2 :: [mkQuizAnswer "Q7" 1]) [])
    (mkDbState [] []) =
  (HTTPException 400 (unknown_msg "Z9"), mkDbState [] []).
Proof.
  apply (submit_quiz_first_unknown (fun _ _ => true) [mkQuizAnswer "X1" 5] [mkQuizAnswer "Q7" 1]
           (mkQuizAnswer "Z9" 2) [] (mkDbState [] [])).
  - intros a Ha. destruct Ha as [<-|[]].
    exists (mkQuestion "X1" "I worry about being abandoned." anxiety).
    split; [unfold QUESTIONS; simpl; intuition | reflexivity].
  - intros [q [Hin Hid]]. unfold QUESTIONS in Hin.
    repeat (destruct Hin as [<-|Hin]; [discriminate|]). destruct Hin.
Defined.

(** Appending answers to avoidance questions leaves the anxiety result
    unchanged, and appending answers to anxiety questions leaves the
    avoidance result unchanged. *)
Theorem compute_scores_factor_independent :
  (forall l l' : list QuizAnswer,
     (forall a, In a l -> known a) ->
     (forall a, In a l' -> bank_factor (question_id a) = Some avoidance) ->
     exists anx avo avo', compute_scores l = Ok (anx, avo) /\
                          compute_scores (l ++ l') = Ok (anx, avo')) /\
  (forall l l' : list QuizAnswer,
     (forall a, In a l -> known a) ->
     (forall a, In a l' -> bank_factor (question_id a) = Some anxiety) ->
     exists anx anx' avo, compute_scores l = Ok (anx, avo) /\
                          compute_scores (l ++ l') = Ok (anx', avo)).
Proof.
  assert (Hk : forall l l' f, (forall a, In a l -> known a) ->
             (forall a, In a l' -> bank_factor (question_id a) = Some f) ->
             Forall known l /\ Forall known (l ++ l')).
  { intros l l' f Hl Hl'. split; apply List.Forall_forall; [assumption|].
    intros a Ha. apply in_app_or in Ha as [Ha|Ha]; [now apply Hl|].
    destruct (bank_factor_known _ _ (Hl' a Ha)) as [q [Hin [Hid _]]]. now exists q. }
  assert (Hnil : forall l' f g, f <> g ->
             (forall a, In a l' -> bank_factor (question_id a) = Some f) ->
             List.filter (has_factor g) l' = []).
  { intros l' f g Hfg Hl'. induction l' as [|a l' IH]; [reflexivity|]. simpl.
    unfold has_factor at 1. rewrite (Hl' a (or_introl eq_refl)).
    destruct f, g; try congruence; apply IH; intros b Hb; apply Hl'; now right. }
  split; intros l l' Hl Hl'; destruct (Hk _ _ _ Hl Hl') as [K1 K2];
    rewrite (compute_scores_known _ K1), (compute_scores_known _ K2);
    unfold scores_of; rewrite !List.filter_app.
  - rewrite (Hnil l' avoidance anxiety) by (discriminate || assumption).
    rewrite app_nil_r. do 3 eexists. split; reflexivity.
  - rewrite (Hnil l' anxiety avoidance) by (discriminate || assumption).
    rewrite app_nil_r. do 3 eexists. split; reflexivity.
Qed.

(* ------------------------------------------------------------------ *)
(* Further properties of classify_style and rounding.                  *)
(* ------------------------------------------------------------------ *)

(** The style alone determines the whole classification: two score pairs with
    the same style get the same prevalence and the same recommendations, and
    every style carries exactly three recommendations. *)
Theorem classify_style_determined_by_style :
  forall a v a' v' : Q,
    (style_of a v = style_of a' v' -> classify_style a v = classify_style a' v') /\
    length (snd (classify_style a v)) = 3%nat.
Proof.
  intros a v a' v'. unfold style_of, classify_style. rewrite !Qge_bool_negb.
  destruct (Qlt_bool a thr), (Qlt_bool v thr), (Qlt_bool a' thr), (Qlt_bool v' thr);
    simpl; split; try reflexivity; intros E; try discriminate E; reflexivity.
Qed.

(** Rounding is idempotent: a value already rounded to two decimals is
    returned unchanged by a second rounding. *)
Theorem py_round2_idempotent (x : Q) : py_round2 (py_round2 x) = py_round2 x.
Proof.
  destruct (py_round2_two_places x) as [k E]. rewrite E.
  unfold py_round2, round_half_even. cbn [Qmult Qnum Qden Pos.mul].
  rewrite Z.div_mul by discriminate. rewrite Z.sub_diag. reflexivity.
Qed.

Lemma py_round2_near_four (y : Q) :
  (3995 # 1000 <= y)%Q -> (y < 4)%Q -> py_round2 y = 400 # 100.
Proof.
  destruct y as [n d]. unfold Qle, Qlt. cbn [Qnum Qden]. intros Hlo Hhi.
  unfold py_round2, round_half_even. cbn [Qmult Qnum Qden]. rewrite Pos.mul_1_r.
  pose proof (Z.div_mod (n * 100) (Zpos d) ltac:(lia)) as Hdm.
  pose proof (Z.mod_pos_bound (n * 100) (Zpos d) ltac:(lia)) as Hb.
  set (fl := ((n * 100) / Zpos d)%Z) in *. set (r := ((n * 100) mod Zpos d)%Z) in *.
  assert (Hfl : fl = 399%Z) by nia.
  assert (Hr : (n * 100 - fl * Zpos d = r)%Z) by lia. rewrite Hr, Hfl.
  destruct (Z.compare_spec (2 * r) (Zpos d)); [reflexivity | exfalso; nia | reflexivity].
Qed.

Lemma classify_style_cases (a v : Q) :
  exists s p r1 r2 r3, classify_style a v = (s, p, [r1; r2; r3]) /\
    In s ["Secure"; "Anxious (Preoccupied)"; "Avoidant (Dismissive)";
          "Fearful-Avoidant (Disorganized)"].
Proof.
  unfold classify_style.
  destruct (Qlt_bool a thr), (Qge_bool a thr), (Qlt_bool v thr), (Qge_bool v thr); simpl;
    do 5 eexists; (split; [reflexivity | simpl; tauto]).
Qed.

Lemma known_X1 (x : Q) : known (mkQuizAnswer "X1" x).
Proof.
  exists (mkQuestion "X1" "I worry about being abandoned." anxiety).
  split; [unfold QUESTIONS; simpl; intuition | reflexivity].
Qed.

(** The response rounds the means but the style is computed from the
    unrounded means: a single anxiety answer with a score in [3.995, 4) is
    shown as anxiety_score 4.00 while the style is the low-anxiety
    'Secure'. *)
Theorem submit_quiz_rounded_at_threshold (x : Q)
    (Hlo : (3995 # 1000 <= x)%Q) (Hhi : (x < 4)%Q)
    (ok : string -> QuizResult -> bool) (m : list (string * json)) (st : db_state) :
  exists anx, (anx == x)%Q /\ py_round2 anx = 400 # 100 /\
    fst (submit_quiz ok (mkSubmitPayload [mkQuizAnswer "X1" x] m) st) =
      Ok (JObj [("style", JStr "Secure");
                ("anxiety_score", JNum (py_round2 anx));
                ("avoidance_score", JNum (0 # 100));
                ("prevalence", JStr "~50% of adults in community samples");
                ("recommendations", JArr [JStr "Maintain open communication and healthy boundaries.";
                                          JStr "Continue investing in supportive relationships.";
                                          JStr "Practice self-reflection to keep patterns secure under stress."]);
                ("explanation", JStr explanation)]).
Proof.
  assert (Hk : Forall known [mkQuizAnswer "X1" x]) by (constructor; [apply known_X1 | constructor]).
  exists (factor_mean [x]).
  assert (Heq : (factor_mean [x] == x)%Q).
  { change ((0 + x) / inject_Z 1 == x)%Q. field. }
  split; [exact Heq|]. split.
  { apply py_round2_near_four; rewrite Heq; assumption. }
  unfold submit_quiz. cbn [answers]. rewrite (compute_scores_known _ Hk).
  change (scores_of anxiety [mkQuizAnswer "X1" x]) with [x].
  change (scores_of avoidance [mkQuizAnswer "X1" x]) with (@nil Q).
  assert (Hlt : Qlt_bool (factor_mean [x]) thr = true).
  { apply Qlt_bool_iff. rewrite Heq. exact Hhi. }
  unfold classify_style. rewrite Hlt. reflexivity.
Qed.

Lemma submit_quiz_rounded_at_threshold_witness :
  exists anx, (anx == 3996 # 1000)%Q /\ py_round2 anx = 400 # 100 /\
    fst (submit_quiz (fun _ _ => true) (mkSubmitPayload [mkQuizAnswer "X1" (3996 # 1000)] [])
           (mkDbState [] [])) =
      Ok (JObj [("style", JStr "Secure");
                ("anxiety_score", JNum (py_round2 anx));
                ("avoidance_score", JNum (0 # 100));
                ("prevalence", JStr "~50% of adults in community samples");
                ("recommendations", JArr [JStr "Maintain open communication and healthy boundaries.";
                                          JStr "Continue investing in supportive relationships.";
                                          JStr "Practice self-reflection to keep patterns secure under stress."]);
                ("explanation", JStr explanation)]).
Proof.
  apply submit_quiz_rounded_at_threshold; unfold Qle, Qlt; simpl; lia.
Defined.

(** A submission whose ids are all known makes exactly one call to
    create_document, on the collection "quizresult", with a record holding
    the submitted answers and meta; the record is stored when the call
    succeeds and nothing is stored when it raises. *)
Theorem submit_quiz_persists_once (ok : string -> QuizResult -> bool)
    (payload : SubmitPayload) (st : db_state)
    (Hknown : forall a, In a (answers payload) -> known a) :
  exists r, r_answers r = answers payload /\ r_meta r = meta payload /\
    calls (snd (submit_quiz ok payload st)) = ("quizresult", r) :: calls st /\
    stored (snd (submit_quiz ok payload st)) =
      (if ok "quizresult" r then ("quizresult", r) :: stored st else stored st).
Proof.
  unfold submit_quiz.
  rewrite (compute_scores_spec _ (proj2 (List.Forall_forall _ _) Hknown)).
  destruct (classify_style _ _) as [[style prevalence] recs].
  replace (match meta payload with [] => [] | m => m end) with (meta payload)
    by (destruct (meta payload); reflexivity).
  exists (mkQuizResult (answers payload) (spec_mean anxiety (answers payload))
            (spec_mean avoidance (answers payload)) style prevalence recs (meta payload)).
  split; [reflexivity|]. split; [reflexivity|].
  unfold create_document. destruct (ok _ _); split; reflexivity.
Qed.

Lemma submit_quiz_persists_once_witness :
  exists r, r_answers r = [mkQuizAnswer "X1" 5] /\ r_meta r = [] /\
    calls (snd (submit_quiz (fun _ _ => false) (mkSubmitPayload [mkQuizAnswer "X1" 5] []) (mkDbState [] []))) =
      [("quizresult", r)] /\
    stored (snd (submit_quiz (fun _ _ => false) (mkSubmitPayload [mkQuizAnswer "X1" 5] []) (mkDbState [] []))) =
      (if (fun _ _ => false) "quizresult" r then [("quizresult", r)] else []).
Proof.
  apply (submit_quiz_persists_once (fun _ _ => false) (mkSubmitPayload [mkQuizAnswer "X1" 5] [])
           (mkDbState [] [])).
  intros a Ha. destruct Ha as [<-|[]]. apply known_X1.
Defined.

(** Every successful response has the same shape: the keys style,
    anxiety_score, avoidance_score, prevalence, recommendations and
    explanation in this order, a style among the four, exactly three
    recommendation strings and the fixed explanation. *)
Theorem submit_quiz_response_shape (ok : string -> QuizResult -> bool)
    (payload : SubmitPayload) (st : db_state) (j : json)
    (Hok : fst (submit_quiz ok payload st) = Ok j) :
  exists style a v prevalence r1 r2 r3,
    j = JObj [("style", JStr style); ("anxiety_score", JNum a); ("avoidance_score", JNum v);
              ("prevalence", JStr prevalence);
              ("recommendations", JArr [JStr r1; JStr r2; JStr r3]);
              ("explanation", JStr explanation)] /\
    In style ["Secure"; "Anxious (Preoccupied)"; "Avoidant (Dismissive)";
              "Fearful-Avoidant (Disorganized)"].
Proof.
  unfold submit_quiz in Hok.
  destruct (compute_scores (answers payload)) as [[anx avo]|c d]; [|discriminate Hok].
  destruct (classify_style_cases anx avo) as [s [p [r1 [r2 [r3 [E Hin]]]]]].
  rewrite E in Hok. cbn in Hok. injection Hok as <-.
  exists s, (py_round2 anx), (py_round2 avo), p, r1, r2, r3. split; [reflexivity | exact Hin].
Qed.

Lemma submit_quiz_response_shape_witness :
  exists style a v prevalence r1 r2 r3,
    JObj [("style", JStr "Secure"); ("anxiety_score", JNum (0 # 100));
          ("avoidance_score", JNum (0 # 100));
          ("prevalence", JStr "~50% of adults in community samples");
          ("recommendations", JArr [JStr "Maintain open communication and healthy boundaries.";
                                    JStr "Continue investing in supportive relationships.";
                                    JStr "Practice self-reflection to keep patterns secure under stress."]);
          ("explanation", JStr explanation)] =
    JObj [("style", JStr style); ("anxiety_score", JNum a); ("avoidance_score", JNum v);
          ("prevalence", JStr prevalence);
          ("recommendations", JArr [JStr r1; JStr r2; JStr r3]);
          ("explanation", JStr explanation)] /\
    In style ["Secure"; "Anxious (Preoccupied)"; "Avoidant (Dismissive)";
              "Fearful-Avoidant (Disorganized)"].
Proof.
  apply (submit_quiz_response_shape (fun _ _ => true) (mkSubmitPayload [] []) (mkDbState [] [])).
  vm_compute. reflexivity.
Defined.

(** The id map built from the bank loses no question: looking an id up gives
    a question exactly when the bank holds that question with that id (the
    bank's ids are distinct, so no entry is overwritten). *)
Theorem qmap_lookup_iff (id : string) (q : question) :
  qmap !! id = Some q <-> In q QUESTIONS /\ q_id q = id.
Proof.
  split; [apply qmap_lookup_inv|].
  intros [Hin <-]. now apply qmap_lookup_bank.
Qed.


(* ------------------------------------------------------------------ *)
(* The request path on doubles.                                        *)
(* ------------------------------------------------------------------ *)

Lemma render_submit_error (style : string) (a v : float) (p : string) (r : list string) c d :
  render_submit style a v p r = HttpError c d ->
  c = 500%Z /\ (is_finite a = false \/ is_finite v = false).
Proof.
  unfold render_submit. destruct a, v; try discriminate; intros E; injection E as <- _;
    split; auto.
Qed.

Lemma render_submit_nonfinite (style : string) (a v : float) (p : string) (r : list string) :
  is_finite a = false \/ is_finite v = false ->
  render_submit style a v p r = HttpError 500 "Internal Server Error".
Proof.
  unfold render_submit. intros [H|H]; destruct a, v; try discriminate; reflexivity.
Qed.

(** C9 (as stated, refuted): two answers to X1 with the score 1e308, a
    finite double and a valid JSON number, refer only to known questions, yet
    the request fails: their sum overflows to inf, the mean and its rounding
    stay inf, and the response cannot be serialised (HTTP 500). *)
Lemma submit_quiz_http_overflow_500 :
  f64_round (inject_Z (10 ^ 308)) = Fin double_1e308 /\
  Forall known [mkQuizAnswer "X1" double_1e308; mkQuizAnswer "X1" double_1e308] /\
  submit_quiz_http (mkSubmitPayload [mkQuizAnswer "X1" double_1e308; mkQuizAnswer "X1" double_1e308] []) =
    HttpError 500 "Internal Server Error".
Proof.
  split; [vm_compute; reflexivity|]. split.
  - constructor; [|constructor; [|constructor]]; apply known_X1.
  - vm_compute. reflexivity.
Qed.

(** C9 (amended): the handler rejects a submission with HTTP 400 exactly when
    some answer's id is not in the bank.  Scores are never range-checked:
    with all ids known, every score enters its factor's float mean (0 and 99
    are averaged like any other score), and the request fails only with
    HTTP 500, exactly when a rounded mean is not finite (inf or nan) and
    the response cannot be serialised to JSON. *)
Theorem submit_quiz_http_errors :
  (forall payload : SubmitPayload,
     ((exists d, submit_quiz_http payload = HttpError 400 d) <->
      (exists a, In a (answers payload) /\ ~ known a)) /\
     ((exists d, submit_quiz_http payload = HttpError 500 d) <->
      (forall a, In a (answers payload) -> known a) /\
      (is_finite (py_round2_f (factor_mean_f (scores_of anxiety (answers payload)))) = false \/
       is_finite (py_round2_f (factor_mean_f (scores_of avoidance (answers payload)))) = false)) /\
     (forall c d, submit_quiz_http payload = HttpError c d -> c = 400%Z \/ c = 500%Z)) /\
  (factor_mean_f (scores_of anxiety [mkQuizAnswer "X1" 0; mkQuizAnswer "X2" 99; mkQuizAnswer "A1" 99]) =
     f64_round (99 # 2) /\
   factor_mean_f (scores_of avoidance [mkQuizAnswer "X1" 0; mkQuizAnswer "X2" 99; mkQuizAnswer "A1" 99]) =
     f64_round 99 /\
   exists j, submit_quiz_http
     (mkSubmitPayload [mkQuizAnswer "X1" 0; mkQuizAnswer "X2" 99; mkQuizAnswer "A1" 99] []) = HttpOk j).
Proof.
  split; [|split; [vm_compute; reflexivity|split; [vm_compute; reflexivity|]];
           eexists; vm_compute; reflexivity].
  intros payload. unfold submit_quiz_http.
  destruct (known_or_unknown (answers payload)) as [Hk|Hu].
  - rewrite (score_loop_known _ _ Hk). cbn [fs_anxiety fs_avoidance app].
    destruct (classify_style_f _ _) as [[style p] r].
    assert (Hall : forall a, In a (answers payload) -> known a) by now apply List.Forall_forall.
    split; [|split].
    + split.
      * intros [d E]. apply render_submit_error in E. lia.
      * intros [a [Ha Hna]]. exfalso. exact (Hna (Hall a Ha)).
    + split.
      * intros [d E]. split; [exact Hall|]. exact (proj2 (render_submit_error _ _ _ _ _ _ _ E)).
      * intros [_ H]. eexists. now apply render_submit_nonfinite.
    + intros c d E. right. exact (proj1 (render_submit_error _ _ _ _ _ _ _ E)).
  - destruct (score_loop_unknown _ (mkFactorScores [] []) Hu) as [bad [Hin [Hnk E]]].
    rewrite E. split; [|split].
    + split; [intros _; exact Hu | intros _; eexists; reflexivity].
    + split; [intros [d Hd]; discriminate Hd|].
      intros [Hall _]. exfalso. exact (Hnk (Hall bad Hin)).
    + intros c d Hd. injection Hd as <- _. now left.
Qed.
